(** * libsecurity_codesigning: disk representations and SecCode objects

    A shallow embedding of [lib/diskrep.h] and [lib/Code.h].

    The two headers declare the [DiskRep] interface, the [FilterRep]
    decorator with its inline forwarding members, the resolution entry
    points ([bestGuess], [bestFileGuess]) and the [SecCode] object.  Member
    functions whose bodies are written in the headers are translated from
    them; bodies that live in the [.cpp] files of the library are modelled
    from the specification and are marked as such. *)

From Stdlib Require Import ZArith List String Bool Lia.
Import ListNotations.

Local Open Scope string_scope.

(** ** Effects: C++ calls that read and update a world and may throw *)

Module Effect.

(** The conditions a call can fail with (error taxonomy of the library). *)
Inductive Error : Type :=
| ResolutionFailure                (* unrecognized format, missing slice *)
| IOFailure (errno : Z)            (* missing file, permission, read error *)
| ParseFailure                     (* malformed candidate format *)
| ValidityFailure (reason : Z).    (* checkValidity *)

Inductive Outcome (A : Type) : Type :=
| Ret (a : A)
| Throw (e : Error).
Arguments Ret {A} a.
Arguments Throw {A} e.

(** A member function call: runs in a world, returns or throws, and leaves
    a world behind. *)
Definition M (World A : Type) : Type := World -> Outcome A * World.

Definition ret {World A} (a : A) : M World A := fun w => (Ret a, w).

Definition throw {World A} (e : Error) : M World A := fun w => (Throw e, w).

Definition bind {World A B} (m : M World A) (k : A -> M World B) : M World B :=
  fun w =>
    match m w with
    | (Ret a, w') => k a w'
    | (Throw e, w') => (Throw e, w')
    end.

End Effect.

Import Effect.

Notation "x <- m ;; k" := (bind m (fun x => k))
  (at level 61, m at next level, right associativity).

(** ** The values the interface traffics in *)

Module Types.

(** [CodeDirectory::SpecialSlot]: the two slots the header names, and the
    rest of the enumeration by number. *)
Inductive SpecialSlot : Type :=
| cdCodeDirectorySlot
| cdSignatureSlot
| cdSlot (n : Z).

(** Modelled from the spec: class [Architecture] comes from
    [security_utilities/macho++.h]; the header only uses
    [Architecture::none], the unspecified selector. *)
Inductive Architecture : Type :=
| Architecture_none
| Architecture_cpu (cputype cpusubtype : Z).

Definition Architecture_eqb (a b : Architecture) : bool :=
  match a, b with
  | Architecture_none, Architecture_none => true
  | Architecture_cpu t s, Architecture_cpu t' s' => (t =? t')%Z && (s =? s')%Z
  | _, _ => false
  end.

(** A parsed Mach-O/Universal image: its slices and their file offsets. *)
Definition Universal : Type := list (Architecture * Z).

Definition size_t : Type := Z.
Definition off_t : Type := Z.

(** Pointers and CoreFoundation references are nullable: [None] is NULL. *)
Definition CFDataRef : Type := option (list Z).
Definition CFURLRef : Type := option string.
Definition CFDictionaryRef : Type := option (list (string * string)).
Definition CFArrayRef : Type := option (list string).
Definition RequirementsPtr : Type := option (list Z).
Definition UniversalPtr : Type := option Universal.

(** [UnixPlusPlus::FileDesc &]: the cached descriptor object a
    representation owns, named by its location. *)
Definition FileDescRef : Type := nat.

(** [ResourceBuilder &]: the rule set a caller hands in to be adjusted. *)
Definition ResourceBuilder : Type := list string.

End Types.

Import Types.

(** ** DiskRep and FilterRep (diskrep.h) *)

Module Disk.

(** [static const size_t segmentedPageSize = 4096;] *)
Definition segmentedPageSize : size_t := 4096%Z.

(** [static const size_t monolithicPageSize = 0;] *)
Definition monolithicPageSize : size_t := 0%Z.

Section Classes.

Variable World : Type.

(** A class derived directly from [DiskRep].  The eight pure virtual
    members ([= 0] in the header) have to be supplied; the other
    virtual members have a body in [DiskRep] and are overridden or not
    ([None]).  The member functions close over the object they belong
    to; its mutable fields (cached descriptor, parsed image) live in
    the world, so every holder of the object sees the same state. *)
Record ConcreteClass : Type := {
  c_component : SpecialSlot -> M World CFDataRef;
  c_identification : M World CFDataRef;
  c_mainExecutablePath : M World string;
  c_canonicalPath : M World CFURLRef;
  c_recommendedIdentifier : M World string;
  c_signingLimit : M World size_t;
  c_format : M World string;
  c_fd : M World FileDescRef;
  c_resourcesRootPath : option (M World string);
  c_defaultResourceRules : option (M World CFDictionaryRef);
  c_adjustResources : option (ResourceBuilder -> M World ResourceBuilder);
  c_defaultRequirements :
    option (option Architecture -> M World RequirementsPtr);
  c_mainExecutableImage : option (M World UniversalPtr);
  c_pageSize : option (M World size_t);
  c_signingBase : option (M World size_t);
  c_modifiedFiles : option (M World CFArrayRef);
  c_flush : option (M World unit)
}.

(** A class derived from [FilterRep] supplies [component], the one
    member [FilterRep] leaves pure virtual.  It reaches the wrapped
    representation through [base()]; the first argument is the
    [component] member of that representation. *)
Record FilterClass : Type := {
  f_component :
    (SpecialSlot -> M World CFDataRef) -> SpecialSlot -> M World CFDataRef
}.

(** An object of the hierarchy.  [FilterRep(DiskRep *orig) :
    mOriginal(orig)] stores the wrapped object, which is never
    reassigned. *)
Inductive DiskRep : Type :=
| Concrete (cls : ConcreteClass)
| FilterRep (sub : FilterClass) (mOriginal : DiskRep).

(** *** Bodies of [DiskRep]'s own virtual members

    The header declares them; their bodies are in [diskrep.cpp]. *)

(** Modelled from the spec: [DiskRep::resourcesRootPath] (body not in
    the headers); a representation with no resource concept returns
    the empty path. *)
Definition DiskRep_resourcesRootPath : M World string := ret "".

(** Modelled from the spec: [DiskRep::defaultResourceRules] (body not in
    the headers); none by default. *)
Definition DiskRep_defaultResourceRules : M World CFDictionaryRef := ret None.

(** Modelled from the spec: [DiskRep::adjustResources] (body not in the
    headers); a no-op on the builder. *)
Definition DiskRep_adjustResources (builder : ResourceBuilder)
  : M World ResourceBuilder := ret builder.

(** Modelled from the spec: [DiskRep::defaultRequirements] (body not in
    the headers); none by default. *)
Definition DiskRep_defaultRequirements (arch : option Architecture)
  : M World RequirementsPtr := ret None.

(** Modelled from the spec: [DiskRep::mainExecutableImage] (body not in
    the headers); absent unless the main executable is Mach-O. *)
Definition DiskRep_mainExecutableImage : M World UniversalPtr := ret None.

(** Modelled from the spec: [DiskRep::pageSize] (body not in the
    headers); the segmented default when the main executable of the
    object is Mach-O, the monolithic default otherwise.  The argument is
    the virtual call [this->mainExecutableImage()]. *)
Definition DiskRep_pageSize (image : M World UniversalPtr) : M World size_t :=
  u <- image ;;
  ret (match u with
       | Some _ => segmentedPageSize
       | None => monolithicPageSize
       end).

(** Modelled from the spec: [DiskRep::signingBase] (body not in the
    headers); defaults to 0. *)
Definition DiskRep_signingBase : M World size_t := ret 0%Z.

(** Modelled from the spec: [DiskRep::modifiedFiles] (body not in the
    headers); an optional query, none by default. *)
Definition DiskRep_modifiedFiles : M World CFArrayRef := ret None.

(** Modelled from the spec: [DiskRep::flush] (body not in the headers);
    a no-op by default. *)
Definition DiskRep_flush : M World unit := ret tt.

(** The body a concrete class ends up with for a member that [DiskRep]
    defines: its own override, or the inherited one. *)
Definition inherited {A : Type} (override : option A) (body : A) : A :=
  match override with
  | Some f => f
  | None => body
  end.

(** *** Virtual calls

    One function per virtual member.  For a [FilterRep] the body is the
    inline member of the header where there is one, and the body
    inherited from [DiskRep] where there is none. *)

(** [CFDataRef component(CodeDirectory::SpecialSlot slot) = 0;] in both
    classes: the most derived class supplies it. *)
Fixpoint component (r : DiskRep) : SpecialSlot -> M World CFDataRef :=
  match r with
  | Concrete cls => c_component cls
  | FilterRep sub mOriginal => f_component sub (component mOriginal)
  end.

(** [CFDataRef identification() { return mOriginal->identification(); }] *)
Fixpoint identification (r : DiskRep) : M World CFDataRef :=
  match r with
  | Concrete cls => c_identification cls
  | FilterRep _ mOriginal => identification mOriginal
  end.

(** [std::string mainExecutablePath()
    { return mOriginal->mainExecutablePath(); }] *)
Fixpoint mainExecutablePath (r : DiskRep) : M World string :=
  match r with
  | Concrete cls => c_mainExecutablePath cls
  | FilterRep _ mOriginal => mainExecutablePath mOriginal
  end.

(** [CFURLRef canonicalPath() { return mOriginal->canonicalPath(); }] *)
Fixpoint canonicalPath (r : DiskRep) : M World CFURLRef :=
  match r with
  | Concrete cls => c_canonicalPath cls
  | FilterRep _ mOriginal => canonicalPath mOriginal
  end.

(** [std::string recommendedIdentifier()
    { return mOriginal->recommendedIdentifier(); }] *)
Fixpoint recommendedIdentifier (r : DiskRep) : M World string :=
  match r with
  | Concrete cls => c_recommendedIdentifier cls
  | FilterRep _ mOriginal => recommendedIdentifier mOriginal
  end.

(** [std::string resourcesRootPath()
    { return mOriginal->resourcesRootPath(); }] *)
Fixpoint resourcesRootPath (r : DiskRep) : M World string :=
  match r with
  | Concrete cls =>
      inherited (c_resourcesRootPath cls) DiskRep_resourcesRootPath
  | FilterRep _ mOriginal => resourcesRootPath mOriginal
  end.

(** [CFDictionaryRef defaultResourceRules()
    { return mOriginal->defaultResourceRules(); }] *)
Fixpoint defaultResourceRules (r : DiskRep) : M World CFDictionaryRef :=
  match r with
  | Concrete cls =>
      inherited (c_defaultResourceRules cls) DiskRep_defaultResourceRules
  | FilterRep _ mOriginal => defaultResourceRules mOriginal
  end.

(** [Universal *mainExecutableImage()
    { return mOriginal->mainExecutableImage(); }] *)
Fixpoint mainExecutableImage (r : DiskRep) : M World UniversalPtr :=
  match r with
  | Concrete cls =>
      inherited (c_mainExecutableImage cls) DiskRep_mainExecutableImage
  | FilterRep _ mOriginal => mainExecutableImage mOriginal
  end.

(** [size_t signingBase() { return mOriginal->signingBase(); }] *)
Fixpoint signingBase (r : DiskRep) : M World size_t :=
  match r with
  | Concrete cls => inherited (c_signingBase cls) DiskRep_signingBase
  | FilterRep _ mOriginal => signingBase mOriginal
  end.

(** [size_t signingLimit() { return mOriginal->signingLimit(); }] *)
Fixpoint signingLimit (r : DiskRep) : M World size_t :=
  match r with
  | Concrete cls => c_signingLimit cls
  | FilterRep _ mOriginal => signingLimit mOriginal
  end.

(** [std::string format() { return mOriginal->format(); }] *)
Fixpoint format (r : DiskRep) : M World string :=
  match r with
  | Concrete cls => c_format cls
  | FilterRep _ mOriginal => format mOriginal
  end.

(** [UnixPlusPlus::FileDesc &fd() { return mOriginal->fd(); }] *)
Fixpoint fd (r : DiskRep) : M World FileDescRef :=
  match r with
  | Concrete cls => c_fd cls
  | FilterRep _ mOriginal => fd mOriginal
  end.

(** [void flush() { return mOriginal->flush(); }] *)
Fixpoint flush (r : DiskRep) : M World unit :=
  match r with
  | Concrete cls => inherited (c_flush cls) DiskRep_flush
  | FilterRep _ mOriginal => flush mOriginal
  end.

(** [FilterRep] declares no [adjustResources]: a filter runs
    [DiskRep::adjustResources]. *)
Definition adjustResources (r : DiskRep) (builder : ResourceBuilder)
  : M World ResourceBuilder :=
  match r with
  | Concrete cls =>
      inherited (c_adjustResources cls) DiskRep_adjustResources builder
  | FilterRep _ _ => DiskRep_adjustResources builder
  end.

(** [FilterRep] declares no [defaultRequirements]: a filter runs
    [DiskRep::defaultRequirements]. *)
Definition defaultRequirements (r : DiskRep) (arch : option Architecture)
  : M World RequirementsPtr :=
  match r with
  | Concrete cls =>
      inherited (c_defaultRequirements cls) DiskRep_defaultRequirements arch
  | FilterRep _ _ => DiskRep_defaultRequirements arch
  end.

(** [FilterRep] declares no [pageSize]: a filter runs
    [DiskRep::pageSize]. *)
Definition pageSize (r : DiskRep) : M World size_t :=
  match r with
  | Concrete cls =>
      inherited (c_pageSize cls) (DiskRep_pageSize (mainExecutableImage r))
  | FilterRep _ _ => DiskRep_pageSize (mainExecutableImage r)
  end.

(** [FilterRep] declares no [modifiedFiles]: a filter runs
    [DiskRep::modifiedFiles]. *)
Definition modifiedFiles (r : DiskRep) : M World CFArrayRef :=
  match r with
  | Concrete cls => inherited (c_modifiedFiles cls) DiskRep_modifiedFiles
  | FilterRep _ _ => DiskRep_modifiedFiles
  end.

(** *** Non-virtual members of [DiskRep] *)

(** [bool mainExecutableIsMachO()
    { return mainExecutableImage() != NULL; }] *)
Definition mainExecutableIsMachO (r : DiskRep) : M World bool :=
  image <- mainExecutableImage r ;;
  ret (match image with
       | Some _ => true
       | None => false
       end).

(** [CFDataRef codeDirectory() { return component(cdCodeDirectorySlot); }] *)
Definition codeDirectory (r : DiskRep) : M World CFDataRef :=
  component r cdCodeDirectorySlot.

(** [CFDataRef signature() { return component(cdSignatureSlot); }] *)
Definition signature (r : DiskRep) : M World CFDataRef :=
  component r cdSignatureSlot.

(** The representation a stack of filters is built on. *)
Fixpoint underlying (r : DiskRep) : DiskRep :=
  match r with
  | Concrete _ => r
  | FilterRep _ mOriginal => underlying mOriginal
  end.

(** Whether the class of the object declares [pageSize] itself. *)
Definition overridesPageSize (r : DiskRep) : bool :=
  match r with
  | Concrete cls =>
      match c_pageSize cls with Some _ => true | None => false end
  | FilterRep _ _ => false
  end.

End Classes.

Arguments c_component {World} _.
Arguments c_identification {World} _.
Arguments c_mainExecutablePath {World} _.
Arguments c_canonicalPath {World} _.
Arguments c_recommendedIdentifier {World} _.
Arguments c_signingLimit {World} _.
Arguments c_format {World} _.
Arguments c_fd {World} _.
Arguments c_resourcesRootPath {World} _.
Arguments c_defaultResourceRules {World} _.
Arguments c_adjustResources {World} _.
Arguments c_defaultRequirements {World} _.
Arguments c_mainExecutableImage {World} _.
Arguments c_pageSize {World} _.
Arguments c_signingBase {World} _.
Arguments c_modifiedFiles {World} _.
Arguments c_flush {World} _.
Arguments f_component {World} _.
Arguments Concrete {World} cls.
Arguments FilterRep {World} sub mOriginal.
Arguments component {World} r slot _.
Arguments identification {World} r _.
Arguments mainExecutablePath {World} r _.
Arguments canonicalPath {World} r _.
Arguments recommendedIdentifier {World} r _.
Arguments resourcesRootPath {World} r _.
Arguments defaultResourceRules {World} r _.
Arguments mainExecutableImage {World} r _.
Arguments signingBase {World} r _.
Arguments signingLimit {World} r _.
Arguments format {World} r _.
Arguments fd {World} r _.
Arguments flush {World} r _.
Arguments adjustResources {World} r builder _.
Arguments defaultRequirements {World} r arch _.
Arguments pageSize {World} r _.
Arguments modifiedFiles {World} r _.
Arguments mainExecutableIsMachO {World} r _.
Arguments codeDirectory {World} r _.
Arguments signature {World} r _.
Arguments underlying {World} r.
Arguments overridesPageSize {World} r.
Arguments DiskRep_pageSize {World} image _.

End Disk.

(** ** Resolution: Context, bestGuess and bestFileGuess (diskrep.h) *)

Module Resolution.

(** [struct Context] with its three members. *)
Record Context : Type := {
  arch : Architecture;     (* explicit architecture *)
  offset : off_t;          (* explicit file offset *)
  fileOnly : bool          (* only consider single-file representations *)
}.

(** [Context() : arch(Architecture::none), offset(0), fileOnly(false) { }] *)
Definition Context_init : Context :=
  {| arch := Architecture_none; offset := 0%Z; fileOnly := false |}.

(** The assignment [ctx.fileOnly = b]. *)
Definition set_fileOnly (c : Context) (b : bool) : Context :=
  {| arch := arch c; offset := offset c; fileOnly := b |}.

(** *** What a path resolves to

    [bestGuess] and [bestFileGuess] are declared in the header and
    defined in [diskrep.cpp]. *)

(** Modelled from the spec: the structure found in a file (the kinds the
    resolution distinguishes), [Unrecognized] being no recognizable
    structure. *)
Inductive FileStructure : Type :=
| Unrecognized
| SingleMachO (a : Architecture)
| FatMachO (slices : list (Architecture * off_t))
| FlatFile
| Container.

(** Modelled from the spec: what inspecting a path yields: an I/O failure
    (missing file, permission denied, read error), the bundle structure of
    a directory (its main executable) if it has one, and the structure of
    the file. *)
Record Inspection : Type := {
  io_failure : option Z;
  bundle : option string;
  file : FileStructure
}.

Definition FileSystem : Type := string -> Inspection.

(** Modelled from the spec: the concrete representations, whose classes
    are declared in other headers of the library. *)
Inductive Representation : Type :=
| BundleRep (root mainExecutable : string)
| MachORep (path : string) (a : Architecture) (base : off_t)
| FileRep (path : string)
| ContainerRep (path : string).

Definition sliceAtOffset (o : off_t) (slices : list (Architecture * off_t))
  : option (Architecture * off_t) :=
  find (fun s => (snd s =? o)%Z) slices.


Section Guess.

(** The slice picked when the caller names none; the spec leaves the
    choice open. *)
Variable autoDetect :
  list (Architecture * off_t) -> option (Architecture * off_t).

(** Whether the context names a slice itself: by an explicit offset or by
    an explicit architecture. *)
Definition namesSlice (c : Context) : bool :=
  negb (offset c =? 0)%Z ||
  negb (Architecture_eqb (arch c) Architecture_none).

(** Whether a slice is one the context asks for: it lies at the explicit
    offset, if there is one, and is of the explicit architecture, if there
    is one. *)
Definition namedBy (c : Context) (s : Architecture * off_t) : bool :=
  ((offset c =? 0)%Z || (snd s =? offset c)%Z) &&
  (Architecture_eqb (arch c) Architecture_none ||
   Architecture_eqb (fst s) (arch c)).

(** Whether the container holds the slice. *)
Definition isSlice (s : Architecture * off_t)
  (slices : list (Architecture * off_t)) : bool :=
  existsb (fun s' => Architecture_eqb (fst s') (fst s) && (snd s' =? snd s)%Z)
    slices.

(** Modelled from the spec: an explicit offset or an explicit
    architecture in the context takes precedence over the auto-detected
    slice, and an offset or architecture the container does not hold
    selects nothing.  The auto-detected slice counts only if it is a
    slice of the container. *)
Definition selectSlice (c : Context)
  (slices : list (Architecture * off_t)) : option (Architecture * off_t) :=
  if namesSlice c then find (namedBy c) slices
  else match autoDetect slices with
       | Some s => if isSlice s slices then Some s else None
       | None => None
       end.

(** Modelled from the spec: the decision [bestGuess] takes on what it
    found at the path (body in [diskrep.cpp]).  [fileOnly] suppresses
    the bundle; a fat file needs a slice; no recognizable structure is
    a resolution failure; an I/O failure is surfaced as it is. *)
Definition resolve (path : string) (ctx : option Context)
  (found : Inspection) : Outcome Representation :=
  let c := match ctx with Some c => c | None => Context_init end in
  match io_failure found with
  | Some errno => Throw (IOFailure errno)
  | None =>
      match (if fileOnly c then None else bundle found) with
      | Some exe => Ret (BundleRep path exe)
      | None =>
          match file found with
          | Unrecognized => Throw ResolutionFailure
          | SingleMachO a => Ret (MachORep path a 0%Z)
          | FatMachO slices =>
              match selectSlice c slices with
              | Some (a, o) => Ret (MachORep path a o)
              | None => Throw ResolutionFailure
              end
          | FlatFile => Ret (FileRep path)
          | Container => Ret (ContainerRep path)
          end
      end
  end.

(** The process the calls run in: the [Context] objects alive in the
    caller's memory, by address, and the file system. *)
Record Process : Type := {
  memory : list Context;
  files : FileSystem
}.

(** [const Context *]: NULL or the address of a [Context]. *)
Definition ContextPtr : Type := option nat.

(** Reading through the pointer.  An address outside the memory is not
    a [Context]; it reads as absent. *)
Definition load (mem : list Context) (p : ContextPtr) : option Context :=
  match p with
  | None => None
  | Some a => nth_error mem a
  end.

(** The context a call works from: [*ctx], or a default-constructed
    [Context] when [ctx] is NULL. *)
Definition contextOrDefault (mem : list Context) (ctx : ContextPtr)
  : Context :=
  match load mem ctx with
  | Some c => c
  | None => Context_init
  end.

(** [static DiskRep *bestGuess(const char *path, const Context *ctx =
    NULL);] reads the context through the pointer to const. *)
Definition bestGuess (path : string) (ctx : ContextPtr)
  : M Process Representation :=
  fun w => (resolve path (load (memory w) ctx) (files w path), w).

(** Modelled from the spec: [bestFileGuess] (body in [diskrep.cpp]) is
    [bestGuess] on the passed context, if any, with [fileOnly] forced
    true.  The call works on a [Context] of its own: constructed,
    assigned from [*ctx] when there is one, and gone when the call
    returns. *)
Definition bestFileGuess (path : string) (ctx : ContextPtr)
  : M Process Representation :=
  fun w =>
    let mem := memory w in
    let dctx := contextOrDefault mem ctx in
    let local := {| memory := (mem ++ [set_fileOnly dctx true])%list;
                    files := files w |} in
    let (result, w') := bestGuess path (Some (List.length mem)) local in
    (result, {| memory := firstn (List.length mem) (memory w');
                files := files w' |}).

(** Modelled from the spec: the decision of [bestGuess(path, archOffset)]
    (body in [diskrep.cpp]; the header says "Mach-O at given file offset
    only"): resolution is restricted to a Mach-O slice at that byte offset
    and implies [fileOnly].  A single-architecture file is one slice at
    offset 0. *)
Definition resolveAt (path : string) (archOffset : size_t)
  (found : Inspection) : Outcome Representation :=
  match io_failure found with
  | Some errno => Throw (IOFailure errno)
  | None =>
      match file found with
      | SingleMachO a =>
          if (archOffset =? 0)%Z then Ret (MachORep path a 0%Z)
          else Throw ResolutionFailure
      | FatMachO slices =>
          match sliceAtOffset archOffset slices with
          | Some (a, o) => Ret (MachORep path a o)
          | None => Throw ResolutionFailure
          end
      | _ => Throw ResolutionFailure
      end
  end.

(** [static DiskRep *bestGuess(const char *path, size_t archOffset);] *)
Definition bestGuessAt (path : string) (archOffset : size_t)
  : M Process Representation :=
  fun w => (resolveAt path archOffset (files w path), w).



End Guess.

End Resolution.

(** ** SecCode (Code.h) *)

Module Code.

(** Objects are named by their identity. *)
Definition SecCodeRef : Type := nat.
Definition SecStaticCodeRef : Type := nat.

(** The two data members of the class:
    [SecPointer<SecCode> mHost; SecPointer<SecStaticCode> mStaticCode;] *)
Record SecCode : Type := {
  mHost : option SecCodeRef;
  mStaticCode : option SecStaticCodeRef
}.

(** Modelled from the spec: the constructor [SecCode(SecCode *host)]
    (body in [Code.cpp]) records the host; nothing is resolved yet. *)
Definition SecCode_new (host : option SecCodeRef) : SecCode :=
  {| mHost := host; mStaticCode := None |}.

(** Modelled from the spec: [SecCode *host() const] (body in [Code.cpp])
    is the accessor of the host reference. *)
Definition host (c : SecCode) : option SecCodeRef := mHost c.

(** [bool isRoot() const { return host() == NULL; }] *)
Definition isRoot (c : SecCode) : bool :=
  match host c with
  | None => true
  | Some _ => false
  end.

(** The assignment to [mStaticCode]. *)
Definition cache (c : SecCode) (s : SecStaticCodeRef) : SecCode :=
  {| mHost := mHost c; mStaticCode := Some s |}.

Section StaticCode.

Variable World : Type.

(** [virtual SecStaticCode *getStaticCode();] the hook a subclass
    supplies.  It sees the object and runs in the world; the data
    members are private to [SecCode]. *)
Variable getStaticCode : SecCode -> M World SecStaticCodeRef.

(** Modelled from the spec: [SecStaticCode *staticCode()] (body in
    [Code.cpp]) returns the cached static code if present; otherwise it
    invokes [getStaticCode()], caches the result and returns it.  A
    failure of the hook leaves the cache as it was. *)
Definition staticCode : M (SecCode * World) SecStaticCodeRef :=
  fun '(c, w) =>
    match mStaticCode c with
    | Some s => (Ret s, (c, w))
    | None =>
        match getStaticCode c w with
        | (Ret s, w') => (Ret s, (cache c s, w'))
        | (Throw e, w') => (Throw e, (c, w'))
        end
    end.

End StaticCode.

Arguments staticCode {World} getStaticCode _.

End Code.

(** ** Concrete objects used to run the model *)

Module Examples.

Import Disk.

(** A world with one executable on disk: whether its descriptor is open
    and whether its image has been parsed. *)
Record World : Type := {
  fdOpen : bool;
  imageParsed : bool
}.

Definition cold : World := {| fdOpen := false; imageParsed := false |}.
Definition warm : World := {| fdOpen := true; imageParsed := true |}.

Definition i386 : Architecture := Architecture_cpu 7 3.
Definition ppc : Architecture := Architecture_cpu 18 0.

(** A Mach-O representation that leaves [pageSize] to [DiskRep]; it
    caches its descriptor and its image, and [flush] drops both. *)
Definition machoClass : ConcreteClass World := {|
  c_component := fun slot =>
    ret (match slot with cdSignatureSlot => Some [1%Z] | _ => None end);
  c_identification := ret (Some [7%Z; 7%Z]);
  c_mainExecutablePath := ret "/bin/tool";
  c_canonicalPath := ret (Some "/bin/tool");
  c_recommendedIdentifier := ret "tool";
  c_signingLimit := ret 8192%Z;
  c_format := ret "Mach-O thin";
  c_fd := fun w => (Ret 3, {| fdOpen := true; imageParsed := imageParsed w |});
  c_resourcesRootPath := None;
  c_defaultResourceRules := None;
  c_adjustResources := None;
  c_defaultRequirements := None;
  c_mainExecutableImage := Some (fun w =>
    (Ret (Some [(i386, 0%Z)]), {| fdOpen := fdOpen w; imageParsed := true |}));
  c_pageSize := None;
  c_signingBase := None;
  c_modifiedFiles := None;
  c_flush := Some (fun _ => (Ret tt, cold))
|}.

(** A flat file: every member [DiskRep] defines is inherited. *)
Definition flatClass : ConcreteClass World := {|
  c_component := fun _ => ret None;
  c_identification := ret (Some [9%Z]);
  c_mainExecutablePath := ret "/etc/script";
  c_canonicalPath := ret (Some "/etc/script");
  c_recommendedIdentifier := ret "script";
  c_signingLimit := ret 100%Z;
  c_format := ret "generic";
  c_fd := ret 4;
  c_resourcesRootPath := None;
  c_defaultResourceRules := None;
  c_adjustResources := None;
  c_defaultRequirements := None;
  c_mainExecutableImage := None;
  c_pageSize := None;
  c_signingBase := None;
  c_modifiedFiles := None;
  c_flush := None
|}.

(** A bundle whose class overrides the members [FilterRep] does not
    declare: its own page size, resource rules, requirements and list of
    modified files. *)
Definition bundleClass : ConcreteClass World := {|
  c_component := fun _ => ret None;
  c_identification := ret (Some [5%Z]);
  c_mainExecutablePath := ret "/App.app/Contents/MacOS/App";
  c_canonicalPath := ret (Some "/App.app");
  c_recommendedIdentifier := ret "com.example.App";
  c_signingLimit := ret 65536%Z;
  c_format := ret "bundle with Mach-O thin";
  c_fd := ret 5;
  c_resourcesRootPath := Some (ret "/App.app/Contents/Resources");
  c_defaultResourceRules := None;
  c_adjustResources := Some (fun builder => ret ("^Resources/" :: builder));
  c_defaultRequirements := Some (fun _ => ret (Some [1%Z; 2%Z]));
  c_mainExecutableImage := Some (ret (Some [(i386, 0%Z)]));
  c_pageSize := Some (ret 16384%Z);
  c_signingBase := None;
  c_modifiedFiles := Some (ret (Some ["/App.app/Contents/MacOS/App"]));
  c_flush := None
|}.

(** A filter for a detached signature: it substitutes the signature slot
    and passes the other slots to the representation it wraps. *)
Definition detachedClass : FilterClass World := {|
  f_component := fun original slot =>
    match slot with
    | cdSignatureSlot => ret (Some [42%Z])
    | _ => original slot
    end
|}.

Definition machoRep : DiskRep World := Concrete machoClass.
Definition flatRep : DiskRep World := Concrete flatClass.
Definition bundleRep : DiskRep World := Concrete bundleClass.
Definition detachedOverBundle : DiskRep World :=
  FilterRep detachedClass bundleRep.

(** A file system with a thin Mach-O file, a fat one, an application
    bundle, a flat file and a file of no recognizable structure; any
    other path is missing (ENOENT). *)
Definition disk : Resolution.FileSystem := fun path =>
  if String.eqb path "/bin/tool" then
    {| Resolution.io_failure := None; Resolution.bundle := None;
       Resolution.file := Resolution.SingleMachO i386 |}
  else if String.eqb path "/bin/fat" then
    {| Resolution.io_failure := None; Resolution.bundle := None;
       Resolution.file := Resolution.FatMachO [(ppc, 4096%Z); (i386, 8192%Z)] |}
  else if String.eqb path "/App.app" then
    {| Resolution.io_failure := None;
       Resolution.bundle := Some "/App.app/Contents/MacOS/App";
       Resolution.file := Resolution.Unrecognized |}
  else if String.eqb path "/etc/script" then
    {| Resolution.io_failure := None; Resolution.bundle := None;
       Resolution.file := Resolution.FlatFile |}
  else if String.eqb path "/tmp/blob" then
    {| Resolution.io_failure := None; Resolution.bundle := None;
       Resolution.file := Resolution.Unrecognized |}
  else
    {| Resolution.io_failure := Some 2%Z; Resolution.bundle := None;
       Resolution.file := Resolution.Unrecognized |}.

(** Auto-detection that takes the first slice. *)
Definition firstSlice (slices : list (Architecture * off_t))
  : option (Architecture * off_t) := hd_error slices.

(** A caller holding two contexts: one asking for the i386 slice, one
    asking for single files only. *)
Definition wantsI386 : Resolution.Context :=
  {| Resolution.arch := i386; Resolution.offset := 0%Z;
     Resolution.fileOnly := false |}.

Definition caller : Resolution.Process :=
  {| Resolution.memory := [wantsI386; Resolution.set_fileOnly wantsI386 true];
     Resolution.files := disk |}.

(** A subclass hook that finds the static code once the file is there:
    the world is whether the file exists. *)
Definition lookOnDisk (c : Code.SecCode) : M bool Code.SecStaticCodeRef :=
  fun present =>
    if present then ret 17 present else throw (IOFailure 2%Z) present.

End Examples.

(** ** DiskRep::Writer attributes (diskrep.h) *)

Module Writing.

Definition uint32_t : Type := Z.

(** [enum { writerLastResort = 0x0001, writerNoGlobal = 0x0002 };] *)
Definition writerLastResort : uint32_t := 1%Z.
Definition writerNoGlobal : uint32_t := 2%Z.

(** The two data members of the class:
    [Architecture mArch; uint32_t mAttributes;] *)
Record Writer : Type := {
  mArch : Architecture;
  mAttributes : uint32_t
}.

(** [bool attribute(uint32_t attr) const { return mAttributes & attr; }]
    The conversion to [bool] is the test against zero. *)
Definition attribute (w : Writer) (attr : uint32_t) : bool :=
  negb (Z.land (mAttributes w) attr =? 0)%Z.

End Writing.

(** ** The std::string overloads of the resolution entry points (diskrep.h) *)

Module Overloads.

(** The NUL character that ends a C string. *)
Definition NUL : Ascii.ascii := Ascii.zero.

(** [path.c_str()] as the callee sees it through [const char *]: the
    characters before the first NUL. *)
Fixpoint c_str (path : string) : string :=
  match path with
  | EmptyString => EmptyString
  | String c rest =>
      if Ascii.eqb c NUL then EmptyString else String c (c_str rest)
  end.

(** Whether the string holds no NUL character. *)
Fixpoint noNul (path : string) : bool :=
  match path with
  | EmptyString => true
  | String c rest => negb (Ascii.eqb c NUL) && noNul rest
  end.

Section Entry.

(** The three entry points taking [const char *path], declared in the
    header and defined elsewhere; [Ctx] stands for [const Context *] and
    [Rep] for the result of the call. *)
Variables Ctx Rep : Type.
Variable bestGuess : string -> Ctx -> Rep.
Variable bestFileGuess : string -> Ctx -> Rep.
Variable bestGuessAt : string -> size_t -> Rep.

(** [static DiskRep *bestGuess(const std::string &path, const Context *ctx
    = NULL) { return bestGuess(path.c_str(), ctx); }] *)
Definition bestGuess_string (path : string) (ctx : Ctx) : Rep :=
  bestGuess (c_str path) ctx.

(** [static DiskRep *bestGuess(const std::string &path, size_t archOffset)
    { return bestGuess(path.c_str(), archOffset); }] *)
Definition bestGuessAt_string (path : string) (archOffset : size_t) : Rep :=
  bestGuessAt (c_str path) archOffset.

(** [static DiskRep *bestFileGuess(const std::string &path, const Context
    *ctx = NULL) { return bestFileGuess(path.c_str(), ctx); }] *)
Definition bestFileGuess_string (path : string) (ctx : Ctx) : Rep :=
  bestFileGuess (c_str path) ctx.

End Entry.

Arguments bestGuess_string {Ctx Rep} bestGuess path ctx.
Arguments bestGuessAt_string {Rep} bestGuessAt path archOffset.
Arguments bestFileGuess_string {Ctx Rep} bestFileGuess path ctx.

End Overloads.

(** Further objects used to run the model. *)

Module MoreExamples.

(** A callee that reports the path it was handed. *)
Definition echoPath {A : Type} (path : string) (_ : A) : string := path.

End MoreExamples.

(** * Properties of DiskRep and FilterRep *)

Section FilterForwarding.

Import Disk.

Variable World : Type.

(** C1. A filter [F] constructed over a representation [R] answers each
    of the seven queries [mainExecutablePath], [canonicalPath],
    [recommendedIdentifier], [format], [signingBase], [signingLimit] and
    [fd] exactly as [R] does: the same call, hence the same value, the
    same failure and the same effect on the world. *)
Theorem FilterRep_forwards_seven_queries :
  forall (sub : FilterClass World) (R : DiskRep World),
    mainExecutablePath (FilterRep sub R) = mainExecutablePath R /\
    canonicalPath (FilterRep sub R) = canonicalPath R /\
    recommendedIdentifier (FilterRep sub R) = recommendedIdentifier R /\
    format (FilterRep sub R) = format R /\
    signingBase (FilterRep sub R) = signingBase R /\
    signingLimit (FilterRep sub R) = signingLimit R /\
    fd (FilterRep sub R) = fd R.
Proof.
  intros sub R.
  cbn [mainExecutablePath canonicalPath recommendedIdentifier
       format signingBase signingLimit fd].
  repeat split.
Qed.

(** X1. However many filters are stacked, each of the twelve members
    [FilterRep] forwards is the member of the representation at the bottom
    of the stack: same value, same failure, same effect on the world. *)
Lemma forwarded_to_underlying :
  forall r : DiskRep World,
    identification r = identification (underlying r) /\
    mainExecutablePath r = mainExecutablePath (underlying r) /\
    canonicalPath r = canonicalPath (underlying r) /\
    recommendedIdentifier r = recommendedIdentifier (underlying r) /\
    resourcesRootPath r = resourcesRootPath (underlying r) /\
    defaultResourceRules r = defaultResourceRules (underlying r) /\
    mainExecutableImage r = mainExecutableImage (underlying r) /\
    signingBase r = signingBase (underlying r) /\
    signingLimit r = signingLimit (underlying r) /\
    format r = format (underlying r) /\
    fd r = fd (underlying r) /\
    flush r = flush (underlying r).
Proof.
  induction r as [cls | sub r IH].
  - repeat split.
  - exact IH.
Qed.

(** C9. [mainExecutableIsMachO] answers true exactly when
    [mainExecutableImage] returns a non-null image, false exactly when it
    returns NULL, and fails exactly when it fails; either way both leave
    the same world behind. *)
Theorem mainExecutableIsMachO_iff_image :
  forall (r : DiskRep World) (w : World),
    (fst (mainExecutableIsMachO r w) = Ret true <->
     exists image, fst (mainExecutableImage r w) = Ret (Some image)) /\
    (fst (mainExecutableIsMachO r w) = Ret false <->
     fst (mainExecutableImage r w) = Ret None) /\
    (forall e, fst (mainExecutableIsMachO r w) = Throw e <->
               fst (mainExecutableImage r w) = Throw e) /\
    snd (mainExecutableIsMachO r w) = snd (mainExecutableImage r w).
Proof.
  intros r w. unfold mainExecutableIsMachO, bind, ret.
  destruct (mainExecutableImage r w) as [[[image |] | e] w']; cbn;
    repeat split; try discriminate; try congruence;
    try (intros [image' H]; discriminate).
  intros _. now exists image.
Qed.

(** C10. Flushing a filter is flushing the representation it wraps: the
    call is the same, so the world it leaves is the one [R.flush()]
    leaves, and whatever any holder of [R] (the representation itself,
    this filter or any other filter over [R]) asks next is answered as
    after [R.flush()]. *)
Theorem FilterRep_flush_is_original_flush :
  forall (sub : FilterClass World) (R : DiskRep World),
    flush (FilterRep sub R) = flush R /\
    (forall w, snd (flush (FilterRep sub R) w) = snd (flush R w)) /\
    (forall (sub' : FilterClass World) (w : World),
        (_ <- flush (FilterRep sub R) ;; fd (FilterRep sub' R)) w =
        (_ <- flush R ;; fd R) w /\
        (_ <- flush (FilterRep sub R) ;; mainExecutableImage (FilterRep sub' R)) w =
        (_ <- flush R ;; mainExecutableImage R) w).
Proof.
  intros sub R. repeat split.
Qed.

(** The members [FilterRep] declares, beyond the seven of C1, are
    forwarded as well. *)
Lemma FilterRep_forwards_declared_members :
  forall (sub : FilterClass World) (R : DiskRep World),
    identification (FilterRep sub R) = identification R /\
    resourcesRootPath (FilterRep sub R) = resourcesRootPath R /\
    defaultResourceRules (FilterRep sub R) = defaultResourceRules R /\
    mainExecutableImage (FilterRep sub R) = mainExecutableImage R.
Proof.
  intros sub R. repeat split.
Qed.

(** The four members [FilterRep] does not declare run the body inherited
    from [DiskRep], whatever the class of the wrapped object defines. *)
Lemma FilterRep_inherits_undeclared_members :
  forall (sub : FilterClass World) (R : DiskRep World),
    adjustResources (FilterRep sub R) = DiskRep_adjustResources World /\
    defaultRequirements (FilterRep sub R) = DiskRep_defaultRequirements World /\
    pageSize (FilterRep sub R) = DiskRep_pageSize (mainExecutableImage R) /\
    modifiedFiles (FilterRep sub R) = DiskRep_modifiedFiles World.
Proof.
  intros sub R. repeat split.
Qed.

(** C7. A representation whose class does not declare [pageSize] answers
    the segmented default, 4096, when its main executable is Mach-O and
    the monolithic default, 0, when it is not; it never answers anything
    else, and the two defaults are distinct. *)
Theorem pageSize_default_policy :
  forall (r : DiskRep World) (w : World),
    overridesPageSize r = false ->
    (forall w', mainExecutableIsMachO r w = (Ret true, w') ->
                pageSize r w = (Ret segmentedPageSize, w')) /\
    (forall w', mainExecutableIsMachO r w = (Ret false, w') ->
                pageSize r w = (Ret monolithicPageSize, w')) /\
    (forall n w', pageSize r w = (Ret n, w') ->
                  n = segmentedPageSize \/ n = monolithicPageSize) /\
    segmentedPageSize = 4096%Z /\ monolithicPageSize = 0%Z.
Proof.
  intros r w Hdecl.
  assert (Hbody : pageSize r = DiskRep_pageSize (mainExecutableImage r)).
  { destruct r as [cls | sub R]; [| reflexivity].
    cbn in Hdecl |- *. destruct (c_pageSize cls); [discriminate | reflexivity]. }
  rewrite Hbody.
  unfold DiskRep_pageSize, mainExecutableIsMachO, bind, ret.
  destruct (mainExecutableImage r w) as [[[image |] | e] w0];
    repeat split; intros; try discriminate;
    try (left; congruence); try (right; congruence); congruence.
Qed.

End FilterForwarding.

(** The policy of C7 at work on a Mach-O file that leaves [pageSize] to
    [DiskRep]. *)
Lemma pageSize_default_policy_witness :
  Disk.overridesPageSize Examples.machoRep = false /\
  Disk.pageSize Examples.machoRep Examples.cold =
    (Ret 4096%Z, {| Examples.fdOpen := false; Examples.imageParsed := true |}).
Proof.
  split; [reflexivity |].
  apply (proj1 (pageSize_default_policy Examples.World Examples.machoRep
                  Examples.cold eq_refl)).
  reflexivity.
Defined.

(** C2. The filter over a bundle at work: the bundle declares its own page
    size, resource adjustment, default requirements and list of modified
    files, and the filter answers with the bodies of [DiskRep] instead,
    because [FilterRep] declares none of the four members. *)
Theorem FilterRep_drops_four_members :
  fst (Disk.pageSize Examples.detachedOverBundle Examples.cold) = Ret 4096%Z /\
  fst (Disk.pageSize Examples.bundleRep Examples.cold) = Ret 16384%Z /\
  fst (Disk.adjustResources Examples.detachedOverBundle [] Examples.cold) = Ret [] /\
  fst (Disk.adjustResources Examples.bundleRep [] Examples.cold) =
    Ret ["^Resources/"] /\
  fst (Disk.defaultRequirements Examples.detachedOverBundle None Examples.cold) =
    Ret None /\
  fst (Disk.defaultRequirements Examples.bundleRep None Examples.cold) =
    Ret (Some [1%Z; 2%Z]) /\
  fst (Disk.modifiedFiles Examples.detachedOverBundle Examples.cold) = Ret None /\
  fst (Disk.modifiedFiles Examples.bundleRep Examples.cold) =
    Ret (Some ["/App.app/Contents/MacOS/App"]).
Proof.
  repeat split.
Qed.

(** * Properties of the resolution entry points *)

Section ResolutionProperties.

Import Resolution.

Variable autoDetect :
  list (Architecture * off_t) -> option (Architecture * off_t).

Lemma load_local :
  forall (mem : list Context) (c : Context),
    load (mem ++ [c]) (Some (List.length mem)) = Some c.
Proof.
  intros mem c. unfold load.
  rewrite nth_error_app2 by lia.
  rewrite Nat.sub_diag. reflexivity.
Qed.

Lemma drop_local :
  forall (mem : list Context) (c : Context),
    firstn (List.length mem) (mem ++ [c]) = mem.
Proof.
  intros mem c.
  rewrite firstn_app, Nat.sub_diag, firstn_all. cbn.
  apply app_nil_r.
Qed.

(** What [bestFileGuess] returns, in terms of the decision itself. *)
Lemma bestFileGuess_resolve :
  forall (path : string) (ctx : ContextPtr) (w : Process),
    bestFileGuess autoDetect path ctx w =
    (resolve autoDetect path
       (Some (set_fileOnly (contextOrDefault (memory w) ctx) true))
       (files w path), w).
Proof.
  intros path ctx [mem fs]. unfold bestFileGuess, bestGuess.
  cbn [memory files].
  rewrite load_local, drop_local. reflexivity.
Qed.

(** C5. [bestFileGuess(p, ctx)] returns what [bestGuess(p, ctx')] returns
    for any pointer [ctx'] to the passed context (the default one when
    [ctx] is NULL) with [fileOnly] set to true; and the [fileOnly] value
    of the passed context does not matter. *)
Theorem bestFileGuess_is_bestGuess_fileOnly :
  forall (path : string) (ctx : ContextPtr) (w : Process),
    (forall (w' : Process) (ctx' : ContextPtr),
        files w' = files w ->
        load (memory w') ctx' =
          Some (set_fileOnly (contextOrDefault (memory w) ctx) true) ->
        fst (bestFileGuess autoDetect path ctx w) =
        fst (bestGuess autoDetect path ctx' w')) /\
    (forall (b : bool) (w2 : Process) (ctx2 : ContextPtr),
        files w2 = files w ->
        load (memory w2) ctx2 =
          Some (set_fileOnly (contextOrDefault (memory w) ctx) b) ->
        fst (bestFileGuess autoDetect path ctx2 w2) =
        fst (bestFileGuess autoDetect path ctx w)).
Proof.
  intros path ctx w. split.
  - intros w' ctx' Hfiles Hload.
    rewrite bestFileGuess_resolve. unfold bestGuess. cbn.
    rewrite Hload, Hfiles. reflexivity.
  - intros b w2 ctx2 Hfiles Hload.
    rewrite !bestFileGuess_resolve. cbn.
    unfold contextOrDefault at 1. rewrite Hload, Hfiles. reflexivity.
Qed.

(** C8. A default-constructed [Context] has architecture none, offset 0
    and [fileOnly] false; and neither [bestGuess] nor [bestFileGuess]
    changes a [Context] in the caller's memory: the process is left as it
    was found. *)
Theorem Context_defaults_and_constness :
  (arch Context_init = Architecture_none /\
   offset Context_init = 0%Z /\
   fileOnly Context_init = false) /\
  (forall (path : string) (ctx : ContextPtr) (w : Process),
      snd (bestGuess autoDetect path ctx w) = w /\
      snd (bestFileGuess autoDetect path ctx w) = w /\
      load (memory (snd (bestFileGuess autoDetect path ctx w))) ctx =
      load (memory w) ctx).
Proof.
  split; [repeat split |].
  intros path ctx w. rewrite bestFileGuess_resolve. repeat split.
Qed.














End ResolutionProperties.

(** The resolution at work on the example file system. *)
Example bestGuess_bundle :
  fst (Resolution.bestGuess Examples.firstSlice "/App.app" None Examples.caller) =
  Ret (Resolution.BundleRep "/App.app" "/App.app/Contents/MacOS/App").
Proof. reflexivity. Qed.

Example bestFileGuess_bundle :
  fst (Resolution.bestFileGuess Examples.firstSlice "/App.app" None
         Examples.caller) = Throw ResolutionFailure.
Proof. reflexivity. Qed.

Example bestGuess_fat_by_arch :
  fst (Resolution.bestGuess Examples.firstSlice "/bin/fat" (Some 0%nat)
         Examples.caller) =
  Ret (Resolution.MachORep "/bin/fat" Examples.i386 8192%Z).
Proof. reflexivity. Qed.

Example bestFileGuess_leaves_context :
  snd (Resolution.bestFileGuess Examples.firstSlice "/bin/fat" (Some 0%nat)
         Examples.caller) = Examples.caller.
Proof. reflexivity. Qed.

Example bestGuess_thin :
  fst (Resolution.bestGuess Examples.firstSlice "/bin/tool" None
         Examples.caller) =
  Ret (Resolution.MachORep "/bin/tool" Examples.i386 0%Z).
Proof. reflexivity. Qed.

(** An explicit offset that holds a slice does not excuse an explicit
    architecture the container lacks. *)
Example bestGuess_fat_missing_arch :
  fst (Resolution.bestGuess Examples.firstSlice "/bin/fat" (Some 0%nat)
         {| Resolution.memory :=
              [{| Resolution.arch := Architecture_cpu 12 0;
                  Resolution.offset := 8192%Z;
                  Resolution.fileOnly := false |}];
            Resolution.files := Examples.disk |}) =
  Throw ResolutionFailure.
Proof. reflexivity. Qed.

(** An auto-detected slice the container does not hold selects nothing. *)
Example bestGuess_fat_bogus_detection :
  fst (Resolution.bestGuess (fun _ => Some (Examples.ppc, 1%Z)) "/bin/fat"
         None Examples.caller) = Throw ResolutionFailure.
Proof. reflexivity. Qed.

Example bestGuessAt_fat :
  fst (Resolution.bestGuessAt "/bin/fat" 8192%Z Examples.caller) =
    Ret (Resolution.MachORep "/bin/fat" Examples.i386 8192%Z) /\
  fst (Resolution.bestGuessAt "/bin/fat" 100%Z Examples.caller) =
    Throw ResolutionFailure /\
  fst (Resolution.bestGuessAt "/bin/tool" 0%Z Examples.caller) =
    Ret (Resolution.MachORep "/bin/tool" Examples.i386 0%Z) /\
  fst (Resolution.bestGuessAt "/App.app" 0%Z Examples.caller) =
    Throw ResolutionFailure /\
  fst (Resolution.bestGuessAt "/etc/script" 0%Z Examples.caller) =
    Throw ResolutionFailure.
Proof. repeat split. Qed.

Example bestGuess_missing :
  fst (Resolution.bestGuess Examples.firstSlice "/nowhere" None Examples.caller) =
  Throw (IOFailure 2%Z).
Proof. reflexivity. Qed.

(** * Properties of SecCode *)

Section SecCodeProperties.

Import Code.

Variable World : Type.
Variable getStaticCode : SecCode -> M World SecStaticCodeRef.

(** A call of [staticCode] never touches the host reference. *)
Lemma staticCode_keeps_host :
  forall (c : SecCode) (w : World),
    mHost (fst (snd (staticCode getStaticCode (c, w)))) = mHost c.
Proof.
  intros c w. unfold staticCode.
  destruct (mStaticCode c); [reflexivity |].
  destruct (getStaticCode c w) as [[s | e] w']; reflexivity.
Qed.

(** Once the cache is populated, [staticCode] answers from it in every
    world and changes nothing. *)
Lemma staticCode_cached :
  forall (c : SecCode) (s : SecStaticCodeRef) (w : World),
    mStaticCode c = Some s ->
    staticCode getStaticCode (c, w) = (Ret s, (c, w)).
Proof.
  intros c s w H. unfold staticCode. now rewrite H.
Qed.

(** C3. [staticCode] returns the cached static code if the cache is
    populated; otherwise it calls [getStaticCode], and on success stores
    and returns the result, so that a call following a successful one
    returns the same static code without resolving again; when
    [getStaticCode] fails the failure is passed on, the cache stays
    unpopulated, and a later call runs [getStaticCode] again. *)
Theorem staticCode_caches_success_only :
  forall (c : SecCode) (w : World),
    (forall s, mStaticCode c = Some s ->
               staticCode getStaticCode (c, w) = (Ret s, (c, w))) /\
    (mStaticCode c = None ->
     (forall s w', getStaticCode c w = (Ret s, w') ->
                   staticCode getStaticCode (c, w) = (Ret s, (cache c s, w'))) /\
     (forall e w', getStaticCode c w = (Throw e, w') ->
                   staticCode getStaticCode (c, w) = (Throw e, (c, w')))) /\
    (forall s c1 w1,
        staticCode getStaticCode (c, w) = (Ret s, (c1, w1)) ->
        mStaticCode c1 = Some s /\
        forall w2, staticCode getStaticCode (c1, w2) = (Ret s, (c1, w2))) /\
    (forall e c1 w1,
        staticCode getStaticCode (c, w) = (Throw e, (c1, w1)) ->
        c1 = c /\ mStaticCode c1 = None /\
        forall w2 s w3,
          getStaticCode c1 w2 = (Ret s, w3) ->
          staticCode getStaticCode (c1, w2) = (Ret s, (cache c1 s, w3))).
Proof.
  intros c w. split; [| split; [| split]].
  - intros s H. now apply staticCode_cached.
  - intros H. unfold staticCode. rewrite H.
    split; intros ? w' Hhook; now rewrite Hhook.
  - intros s c1 w1. unfold staticCode at 1.
    destruct (mStaticCode c) as [s0 |] eqn:Hc.
    + intros [= <- <- <-]. split; [assumption |].
      intros w2. now apply staticCode_cached.
    + destruct (getStaticCode c w) as [[s0 | e] w'] eqn:Hhook;
        [| discriminate].
      intros [= <- <- <-]. split; [reflexivity |].
      intros w2. now apply staticCode_cached.
  - intros e c1 w1. unfold staticCode at 1.
    destruct (mStaticCode c) as [s0 |] eqn:Hc; [discriminate |].
    destruct (getStaticCode c w) as [[s0 | e0] w'] eqn:Hhook;
      [discriminate |].
    intros [= <- <- <-]. repeat split; [assumption |].
    intros w2 s w3 Hretry. unfold staticCode. now rewrite Hc, Hretry.
Qed.

(** C4. In every state of a [SecCode], [isRoot] answers true exactly when
    [host] answers NULL; the object has no member for it (two objects
    with the same host agree on [isRoot]), and a call of [staticCode],
    the one member that updates the object, leaves both answers as they
    were. *)
Theorem isRoot_iff_no_host :
  forall c : SecCode,
    (isRoot c = true <-> host c = None) /\
    (isRoot c = false <-> exists h, host c = Some h) /\
    (forall c' : SecCode, host c' = host c -> isRoot c' = isRoot c) /\
    (forall w : World,
        host (fst (snd (staticCode getStaticCode (c, w)))) = host c /\
        isRoot (fst (snd (staticCode getStaticCode (c, w)))) = isRoot c).
Proof.
  intros c. unfold isRoot. repeat split.
  - destruct (host c); [discriminate | reflexivity].
  - intros ->. reflexivity.
  - destruct (host c) as [h |]; [now exists h | discriminate].
  - intros [h ->]. reflexivity.
  - intros c' ->. reflexivity.
  - apply staticCode_keeps_host.
  - unfold host. now rewrite staticCode_keeps_host.
Qed.

End SecCodeProperties.

(** The static-code cache at work: resolution fails while the file is
    missing and leaves the cache empty; once the file is there the next call
    resolves and caches, and the call after that answers from the cache even
    if the file is gone again. *)
Example staticCode_retry_then_freeze :
  let c := Code.SecCode_new (Some 1) in
  Code.staticCode Examples.lookOnDisk (c, false) =
    (Throw (IOFailure 2%Z), (c, false)) /\
  Code.staticCode Examples.lookOnDisk (c, true) =
    (Ret 17, (Code.cache c 17, true)) /\
  Code.staticCode Examples.lookOnDisk (Code.cache c 17, false) =
    (Ret 17, (Code.cache c 17, false)) /\
  Code.isRoot c = false /\
  Code.isRoot (Code.SecCode_new None) = true.
Proof. repeat split. Qed.

(** The filter at work: identity queries and [flush] reach the wrapped
    object, the signature slot is the filter's own, every other slot is the
    wrapped object's. *)
Example filter_over_macho :
  let F := Disk.FilterRep Examples.detachedClass Examples.machoRep in
  Disk.mainExecutablePath F Examples.cold = (Ret "/bin/tool", Examples.cold) /\
  Disk.fd F Examples.cold =
    (Ret 3%nat, {| Examples.fdOpen := true; Examples.imageParsed := false |}) /\
  Disk.flush F Examples.warm = (Ret tt, Examples.cold) /\
  Disk.flush F Examples.warm = Disk.flush Examples.machoRep Examples.warm /\
  Disk.signature F Examples.cold = (Ret (Some [42%Z]), Examples.cold) /\
  Disk.signature Examples.machoRep Examples.cold =
    (Ret (Some [1%Z]), Examples.cold) /\
  Disk.codeDirectory F Examples.cold =
    Disk.codeDirectory Examples.machoRep Examples.cold /\
  fst (Disk.mainExecutableIsMachO F Examples.cold) = Ret true /\
  fst (Disk.mainExecutableIsMachO Examples.flatRep Examples.cold) = Ret false /\
  fst (Disk.pageSize Examples.flatRep Examples.cold) = Ret 0%Z.
Proof. repeat split. Qed.

(** * Stacks of filters *)

Section StackProperties.

Import Disk.

Variable World : Type.

Lemma mainExecutableImage_underlying :
  forall r : DiskRep World,
    mainExecutableImage r = mainExecutableImage (underlying r).
Proof.
  induction r as [cls | sub r IH]; [reflexivity | exact IH].
Qed.

(** X3. Behind any number of filters, [mainExecutableIsMachO] is the test
    of the representation at the bottom of the stack. *)
Theorem mainExecutableIsMachO_underlying :
  forall r : DiskRep World,
    mainExecutableIsMachO r = mainExecutableIsMachO (underlying r).
Proof.
  intros r. unfold mainExecutableIsMachO.
  now rewrite mainExecutableImage_underlying.
Qed.

End StackProperties.

(** * Writer attributes *)

Section WriterProperties.

Import Writing.

Local Open Scope Z_scope.

Lemma land_pow2 :
  forall m n : Z,
    0 <= n -> Z.land m (2 ^ n) = if Z.testbit m n then 2 ^ n else 0.
Proof.
  intros m n Hn. apply Z.bits_inj'. intros k Hk.
  rewrite Z.land_spec, Z.pow2_bits_eqb by assumption.
  destruct (Z.eqb_spec n k) as [-> | Hne].
  - destruct (Z.testbit m k) eqn:E; cbn.
    + now rewrite Z.pow2_bits_true.
    + now rewrite Z.bits_0.
  - rewrite andb_false_r.
    destruct (Z.testbit m n).
    + rewrite Z.pow2_bits_false; auto.
    + now rewrite Z.bits_0.
Qed.

(** X4. [attribute(attr)] answers false exactly when no bit of [attr] is
    set in [mAttributes]: for a mask of several bits it tests whether any
    of them is set, not whether all are. *)
Theorem attribute_false_iff_disjoint :
  forall (w : Writer) (attr : uint32_t),
    attribute w attr = false <->
    (forall n, 0 <= n ->
               Z.testbit (mAttributes w) n && Z.testbit attr n = false).
Proof.
  intros w attr. unfold attribute.
  rewrite negb_false_iff, Z.eqb_eq, <- Z.bits_inj_iff'.
  split; intros H n Hn.
  - rewrite <- Z.land_spec, (H n Hn). apply Z.bits_0.
  - rewrite Z.land_spec, Z.bits_0. now apply H.
Qed.

(** X5. Asking for a union of masks is asking for either:
    [attribute(a | b)] is [attribute(a) || attribute(b)]. *)
Theorem attribute_lor :
  forall (w : Writer) (a b : uint32_t),
    attribute w (Z.lor a b) = attribute w a || attribute w b.
Proof.
  intros w a b. unfold attribute.
  rewrite Z.land_lor_distr_r.
  destruct (Z.eqb_spec (Z.land (mAttributes w) a) 0) as [Ha | Ha];
    destruct (Z.eqb_spec (Z.land (mAttributes w) b) 0) as [Hb | Hb]; cbn;
    destruct (Z.eqb_spec (Z.lor (Z.land (mAttributes w) a)
                                (Z.land (mAttributes w) b)) 0) as [H | H];
    try reflexivity; exfalso.
  - apply H. apply Z.lor_eq_0_iff. now split.
  - apply Z.lor_eq_0_iff in H. now destruct H.
  - apply Z.lor_eq_0_iff in H. now destruct H.
  - apply Z.lor_eq_0_iff in H. now destruct H.
Qed.

(** X6. The two writer attributes are read independently of each other and
    of every other bit: [attribute(writerLastResort)] is bit 0 of
    [mAttributes] and [attribute(writerNoGlobal)] is bit 1; a writer with
    no bit set has no attribute, and the empty mask is never answered
    true. *)
Theorem attribute_flags :
  forall w : Writer,
    attribute w writerLastResort = Z.testbit (mAttributes w) 0 /\
    attribute w writerNoGlobal = Z.testbit (mAttributes w) 1 /\
    attribute w 0 = false /\
    (forall (a : Architecture) (attr : uint32_t),
        attribute {| mArch := a; mAttributes := 0 |} attr = false).
Proof.
  intros w. unfold attribute, writerLastResort, writerNoGlobal.
  repeat split.
  - change 1 with (2 ^ 0). rewrite land_pow2 by lia.
    now destruct (Z.testbit (mAttributes w) 0).
  - change 2 with (2 ^ 1). rewrite land_pow2 by lia.
    now destruct (Z.testbit (mAttributes w) 1).
  - now rewrite Z.land_0_r.
Qed.

End WriterProperties.

(** * The std::string overloads *)

Section OverloadProperties.

Import Overloads.

Lemma c_str_noNul :
  forall path : string, noNul path = true -> c_str path = path.
Proof.
  induction path as [| c rest IH]; cbn; [reflexivity |].
  intros H. apply andb_true_iff in H. destruct H as [Hc Hrest].
  apply negb_true_iff in Hc. rewrite Hc. now rewrite IH.
Qed.

Lemma c_str_stops_at_NUL :
  forall prefix rest : string,
    noNul prefix = true ->
    c_str (prefix ++ String NUL rest) = prefix.
Proof.
  induction prefix as [| c prefix IH]; intros rest H; cbn.
  - reflexivity.
  - cbn in H. apply andb_true_iff in H. destruct H as [Hc Hrest].
    apply negb_true_iff in Hc. rewrite Hc. now rewrite IH.
Qed.

Variables Ctx Rep : Type.
Variable bestGuess : string -> Ctx -> Rep.
Variable bestFileGuess : string -> Ctx -> Rep.
Variable bestGuessAt : string -> size_t -> Rep.

(** X7. The [std::string] overloads hand [path.c_str()] to the
    [const char *] entry points: a path without a NUL character is
    resolved as it is, and a path with one is resolved as the part before
    the first NUL, whatever follows it. *)
Theorem string_overloads_stop_at_NUL :
  forall (prefix rest : string) (ctx : Ctx) (archOffset : size_t),
    noNul prefix = true ->
    (bestGuess_string bestGuess prefix ctx = bestGuess prefix ctx /\
     bestFileGuess_string bestFileGuess prefix ctx = bestFileGuess prefix ctx /\
     bestGuessAt_string bestGuessAt prefix archOffset =
       bestGuessAt prefix archOffset) /\
    (bestGuess_string bestGuess (prefix ++ String NUL rest) ctx =
       bestGuess prefix ctx /\
     bestFileGuess_string bestFileGuess (prefix ++ String NUL rest) ctx =
       bestFileGuess prefix ctx /\
     bestGuessAt_string bestGuessAt (prefix ++ String NUL rest) archOffset =
       bestGuessAt prefix archOffset).
Proof.
  intros prefix rest ctx archOffset H.
  unfold bestGuess_string, bestFileGuess_string, bestGuessAt_string.
  rewrite (c_str_noNul prefix H), (c_str_stops_at_NUL prefix rest H).
  repeat split.
Qed.

End OverloadProperties.

(** A path with a NUL in it reaches the callee cut short. *)
Lemma string_overloads_stop_at_NUL_witness :
  Overloads.noNul "/bin/tool" = true /\
  Overloads.bestGuess_string MoreExamples.echoPath
    ("/bin/tool" ++ String Overloads.NUL ".app") tt = "/bin/tool".
Proof.
  split; [reflexivity |].
  exact (proj1 (proj2 (string_overloads_stop_at_NUL unit string
           MoreExamples.echoPath MoreExamples.echoPath MoreExamples.echoPath
           "/bin/tool" ".app" tt 0%Z eq_refl))).
Defined.
